(** * A library catalogue: Express routes over a Sequelize [Book] model

    The application keeps one table of books in an SQLite file and serves
    eight routes over it.  This development embeds the model declaration
    (db/models/Book.js), the error wrapper [asyncHandler] and the route
    handlers (the application's main script), and states the catalogue's
    properties over them.

    Strings are sequences of single-byte characters (code points 0..255).
    The store is the list of the table's rows in rowid order together with
    the AUTOINCREMENT counter.  A handler is a function from the table to
    the table it leaves and to what it returned or threw; the response it
    sends is its return value.

    Left out: the timestamp columns Sequelize maintains, which are not
    part of the Book entity; the limits of the engine (64-bit rowids, the
    longest pattern LIKE accepts); request bodies that carry other fields
    than those of the application's forms. *)

From Stdlib Require Import ZArith List String Ascii Bool Lia DecimalString.
From Stdlib Require Import Sorted.
Import ListNotations.
Open Scope string_scope.
Open Scope Z_scope.

(** ** Characters and strings *)

Module Str.

Definition code (c : ascii) : nat := nat_of_ascii c.

(** The characters matched by [\s] in a JavaScript regular expression,
    among the code points below 256. *)
Definition is_space (c : ascii) : bool :=
  let n := code c in
  ((9 <=? n) && (n <=? 13))%nat || (n =? 32)%nat || (n =? 160)%nat.

(** The string holds white space only (the empty string does). *)
Fixpoint blank (s : string) : bool :=
  match s with
  | EmptyString => true
  | String c s' => is_space c && blank s'
  end.

(** ASCII lower-casing, the only case folding SQLite's LIKE performs. *)
Definition lower (c : ascii) : ascii :=
  let n := code c in
  if ((65 <=? n) && (n <=? 90))%nat then ascii_of_nat (n + 32) else c.

Definition ceq (c d : ascii) : bool := Ascii.eqb (lower c) (lower d).

Fixpoint fold_case (s : string) : string :=
  match s with
  | EmptyString => EmptyString
  | String c s' => String (lower c) (fold_case s')
  end.

(** [s.substring(n)] for [n >= 0] : the string without its first [n]
    characters, empty when [s] is shorter. *)
Fixpoint substring_from (n : nat) (s : string) : string :=
  match n, s with
  | O, _ => s
  | S _, EmptyString => EmptyString
  | S n', String _ s' => substring_from n' s'
  end.

Definition is_wildcard (c : ascii) : bool :=
  Ascii.eqb c "%"%char || Ascii.eqb c "_"%char.

Fixpoint has_wildcard (s : string) : bool :=
  match s with
  | EmptyString => false
  | String c s' => is_wildcard c || has_wildcard s'
  end.

Fixpoint starts_with (t s : string) : bool :=
  match t, s with
  | EmptyString, _ => true
  | String c t', String d s' => Ascii.eqb c d && starts_with t' s'
  | String _ _, EmptyString => false
  end.

(** Whether [t] occurs in [s]. *)
Fixpoint occurs (t s : string) : bool :=
  starts_with t s
  || match s with
     | EmptyString => false
     | String _ s' => occurs t s'
     end.

(** [t] occurs in [s] as a contiguous run of characters. *)
Definition substring_of (t s : string) : Prop :=
  exists pre post, s = pre ++ t ++ post.

(** [t] occurs in [s] up to ASCII letter case. *)
Definition ci_substring_of (t s : string) : Prop :=
  exists pre mid post,
    s = pre ++ mid ++ post /\ fold_case mid = fold_case t.

End Str.

(** ** SQL values and the LIKE operator *)

Module Sql.

(** A cell of a column with INTEGER affinity: SQLite keeps text that is
    not a numeric literal as text. *)
Inductive cell : Type :=
| VInt (z : Z)
| VText (s : string).

Definition string_of_Z (z : Z) : string :=
  NilZero.string_of_int (Z.to_int z).

(** The text LIKE sees for a cell. *)
Definition cell_text (v : cell) : string :=
  match v with
  | VInt z => string_of_Z z
  | VText s => s
  end.

(** SQLite's default LIKE: [%] matches any run of characters, [_] any
    single character, every other pattern character matches itself up
    to ASCII letter case.  There is no escape character. *)
Fixpoint like (p : string) : string -> bool :=
  match p with
  | EmptyString =>
      fun s => match s with EmptyString => true | String _ _ => false end
  | String c p' =>
      if Ascii.eqb c "%"%char then
        fix star (s : string) : bool :=
          like p' s
          || match s with
             | EmptyString => false
             | String _ s' => star s'
             end
      else if Ascii.eqb c "_"%char then
        fun s => match s with
                 | EmptyString => false
                 | String _ s' => like p' s'
                 end
      else
        fun s => match s with
                 | EmptyString => false
                 | String d s' => Str.ceq c d && like p' s'
                 end
  end.

(** Three-valued logic: [None] is SQL's NULL. *)
Definition tv : Type := option bool.

(** [col LIKE pat] : NULL when the column is NULL. *)
Definition col_like (col : option string) (pat : string) : tv :=
  match col with
  | None => None
  | Some s => Some (like pat s)
  end.

Definition or3 (a b : tv) : tv :=
  match a, b with
  | Some true, _ | _, Some true => Some true
  | Some false, Some false => Some false
  | _, _ => None
  end.

(** A WHERE clause keeps the rows whose condition is true (neither
    false nor NULL). *)
Definition holds (a : tv) : bool :=
  match a with
  | Some true => true
  | _ => false
  end.

(** The decimal fragment of INTEGER affinity: an optionally signed run
    of digits becomes an integer, any other text stays text. *)
Fixpoint digits (acc : Z) (s : string) : option Z :=
  match s with
  | EmptyString => Some acc
  | String c s' =>
      let n := Str.code c in
      if ((48 <=? n) && (n <=? 57))%nat
      then digits (10 * acc + Z.of_nat (n - 48)) s'
      else None
  end.

Definition decimal (s : string) : option Z :=
  match s with
  | EmptyString => None
  | String c s' =>
      if Ascii.eqb c "-"%char then
        match s' with
        | EmptyString => None
        | _ => option_map Z.opp (digits 0 s')
        end
      else if Ascii.eqb c "+"%char then
        match s' with
        | EmptyString => None
        | _ => digits 0 s'
        end
      else digits 0 s
  end.

Definition decimal_affinity (s : string) : cell :=
  match decimal s with
  | Some z => VInt z
  | None => VText s
  end.

End Sql.

(** The storage engine's coercion of a text value bound to an INTEGER
    column or compared with one.  Everything below holds for any such
    coercion; [Sql.decimal_affinity] is its decimal fragment. *)
Class Affinity : Type := integer_affinity : string -> Sql.cell.

(** ** Requests and responses *)

Module Req.

(** [req.body] as the url-encoded parser builds it from the
    application's forms: each field is a string, or absent
    ([undefined]). *)
Record fields : Type := mkFields {
  title : option string;
  author : option string;
  genre : option string;
  year : option string;
  search : option string
}.

Record t : Type := mkReq {
  url : string;
  params_id : string;
  body : fields
}.

(** What [+] makes of a field when it builds a string. *)
Definition to_string (v : option string) : string :=
  match v with
  | Some s => s
  | None => "undefined"
  end.

End Req.

(** ** The Book model (db/models/Book.js) and the table behind it *)

Module Book.

Record t : Type := mkBook {
  id : Z;
  title : option string;
  author : option string;
  genre : option string;
  year : option Sql.cell
}.

Record store : Type := mkStore {
  rows : list t;
  seq : Z
}.

(** The table after [sequelize.sync()] on a fresh file. *)
Definition empty : store := {| rows := []; seq := 0 |}.

Inductive error : Type :=
| SequelizeValidationError (paths : list string)
| TypeError.

Definition name (e : error) : string :=
  match e with
  | SequelizeValidationError _ => "SequelizeValidationError"
  | TypeError => "TypeError"
  end.

(** Code that reads and writes the table, and returns or throws. *)
Inductive result (A : Type) : Type :=
| Returned (a : A)
| Thrown (e : error).
Arguments Returned {A} a.
Arguments Thrown {A} e.

Definition M (A : Type) : Type := store -> store * result A.

Definition ret {A} (a : A) : M A := fun st => (st, Returned a).

Definition throw {A} (e : error) : M A := fun st => (st, Thrown e).

Definition bind {A B} (c : M A) (k : A -> M B) : M B :=
  fun st =>
    match c st with
    | (st', Returned a) => k a st'
    | (st', Thrown e) => (st', Thrown e)
    end.

Definition try_catch {A} (c : M A) (h : error -> M A) : M A :=
  fun st =>
    match c st with
    | (st', Returned a) => (st', Returned a)
    | (st', Thrown e) => h e st'
    end.

(** Calling a method on what [findByPk] returned: [null] has none. *)
Definition deref {A} (o : option A) : M A :=
  match o with
  | Some a => ret a
  | None => throw TypeError
  end.

(** *** Validation *)

(** Sequelize's [notEmpty] : the value does not match
    [/^[\s\t\r\n]*$/], that is, it is not white space only. *)
Definition notEmpty (s : string) : bool := negb (Str.blank s).

(** An attribute with [allowNull: false], [notNull] and [notEmpty],
    checked on a new instance: the paths of the failed checks. *)
Definition required (path : string) (v : option string) : list string :=
  match v with
  | None => [path]
  | Some s => if notEmpty s then [] else [path]
  end.

(** The same attribute checked on update: an attribute the values do
    not mention is not set and is skipped. *)
Definition provided (path : string) (v : option string) : list string :=
  match v with
  | None => []
  | Some s => if notEmpty s then [] else [path]
  end.

Definition validate_new (values : Req.fields) : list string :=
  required "title" (Req.title values)
  ++ required "author" (Req.author values).

Definition validate_changed (values : Req.fields) : list string :=
  provided "title" (Req.title values)
  ++ provided "author" (Req.author values).

(** *** The table *)

Definition max_id (l : list t) : Z :=
  fold_right (fun b m => Z.max (id b) m) 0 l.

(** AUTOINCREMENT: one more than the largest id the table ever held. *)
Definition next_id (st : store) : Z :=
  Z.max (seq st) (max_id (rows st)) + 1.

Definition has_id (k : Z) (b : t) : bool := id b =? k.

Definition or_old {A} (new old : option A) : option A :=
  match new with
  | Some v => Some v
  | None => old
  end.

Section Table.

Context {aff : Affinity}.

(** The row an accepted [create] inserts. *)
Definition build (k : Z) (values : Req.fields) : t :=
  {| id := k;
     title := Req.title values;
     author := Req.author values;
     genre := Req.genre values;
     year := option_map integer_affinity (Req.year values) |}.

(** The columns an accepted [update] sets on a row. *)
Definition set (values : Req.fields) (b : t) : t :=
  {| id := id b;
     title := or_old (Req.title values) (title b);
     author := or_old (Req.author values) (author b);
     genre := or_old (Req.genre values) (genre b);
     year := or_old (option_map integer_affinity (Req.year values))
                    (year b) |}.

Definition findAll : M (list t) :=
  fun st => (st, Returned (rows st)).

(** [findAll({ where })] : the rows on which the condition is true,
    in the table's order. *)
Definition findAllWhere (cond : t -> Sql.tv) : M (list t) :=
  fun st => (st, Returned (filter (fun b => Sql.holds (cond b)) (rows st))).

(** [findByPk(pk)] : [WHERE id = pk] with the text [pk] coerced as the
    INTEGER column requires; text that stays text equals no id. *)
Definition lookup (pk : string) (st : store) : option t :=
  match integer_affinity pk with
  | Sql.VInt k => find (has_id k) (rows st)
  | Sql.VText _ => None
  end.

Definition findByPk (pk : string) : M (option t) :=
  fun st => (st, Returned (lookup pk st)).

(** INSERT: the new row goes last and takes the next id. *)
Definition inserted (values : Req.fields) (st : store) : store :=
  {| rows := rows st ++ [build (next_id st) values];
     seq := next_id st |}.

(** UPDATE ... WHERE id = k : the row with that id takes the columns. *)
Definition written (values : Req.fields) (k : Z) (st : store) : store :=
  {| rows := map (fun r => if has_id k r then set values r else r) (rows st);
     seq := seq st |}.

(** DELETE ... WHERE id = k. *)
Definition deleted (k : Z) (st : store) : store :=
  {| rows := filter (fun r => negb (has_id k r)) (rows st);
     seq := seq st |}.

(** [Book.create(values)] : validate, then insert. *)
Definition create (values : Req.fields) : M t :=
  fun st =>
    match validate_new values with
    | [] => (inserted values st, Returned (build (next_id st) values))
    | paths => (st, Thrown (SequelizeValidationError paths))
    end.

(** [book.update(values)] : set, validate what was set, then write the
    row with the instance's id. *)
Definition update (b : t) (values : Req.fields) : M t :=
  fun st =>
    match validate_changed values with
    | [] => (written values (id b) st, Returned (set values b))
    | paths => (st, Thrown (SequelizeValidationError paths))
    end.

(** [book.destroy()] : delete the row with the instance's id. *)
Definition destroy (b : t) : M unit :=
  fun st => (deleted (id b) st, Returned tt).

End Table.

End Book.

Notation "x <- c ;; k" := (Book.bind c (fun x => k))
  (at level 61, c at next level, right associativity).

(** ** The application: error wrapper and route handlers *)

Module App.

Import Book.

(** The data bag handed to a view. *)
Inductive locals : Type :=
| NoLocals
| Books (books : list Book.t)
| OneBook (book : option Book.t)
| NewForm (title author genre year : option string) (alert : bool)
| UpdateForm (id : string) (title author genre year : option string)
             (alert : bool).

Inductive response : Type :=
| Redirect (location : string)
| Render (status : Z) (view : string) (data : locals).

(** [res.status(500).render("error")] *)
Definition error_page : response := Render 500 "error" NoLocals.

(** The 404 middleware: [res.status(404).render("page-not-found")] *)
Definition page_not_found : response := Render 404 "page-not-found" NoLocals.

Definition handler : Type := Req.t -> M response.

(** [asyncHandler(cb)] : run [cb]; a validation error re-renders a form
    chosen by comparing [req.url] with the creation path, any other
    error renders the error page. *)
Definition asyncHandler (cb : handler) : handler :=
  fun req =>
    try_catch (cb req) (fun error =>
      if String.eqb (name error) "SequelizeValidationError" then
        if String.eqb (Req.url req) "/books/new" then
          ret (Render 200 "new-book"
                 (NewForm (Req.title (Req.body req))
                          (Req.author (Req.body req))
                          (Req.genre (Req.body req))
                          (Req.year (Req.body req))
                          true))
        else
          ret (Render 200 "update-book"
                 (UpdateForm (Str.substring_from 7 (Req.url req))
                             (Req.title (Req.body req))
                             (Req.author (Req.body req))
                             (Req.genre (Req.body req))
                             (Req.year (Req.body req))
                             true))
      else
        ret error_page).

(** The pattern of the search route: ["%" + search + "%"]. *)
Definition pattern (search : option string) : string :=
  "%" ++ Req.to_string search ++ "%".

(** One [{ column: { [Op.like]: pattern } }] of the search filter. *)
Definition like_title (p : string) (b : Book.t) : Sql.tv :=
  Sql.col_like (title b) p.
Definition like_author (p : string) (b : Book.t) : Sql.tv :=
  Sql.col_like (author b) p.
Definition like_genre (p : string) (b : Book.t) : Sql.tv :=
  Sql.col_like (genre b) p.
Definition like_year (p : string) (b : Book.t) : Sql.tv :=
  Sql.col_like (option_map Sql.cell_text (year b)) p.

(** The [Op.or] of the four. *)
Definition search_where (p : string) (b : Book.t) : Sql.tv :=
  Sql.or3 (like_title p b)
    (Sql.or3 (like_author p b)
       (Sql.or3 (like_genre p b) (like_year p b))).

Section Routes.

Context {aff : Affinity}.

(** GET / *)
Definition get_root : handler :=
  asyncHandler (fun _ => ret (Redirect "/books")).

(** GET /books *)
Definition get_books : handler :=
  asyncHandler (fun _ =>
    books <- findAll ;;
    ret (Render 200 "index" (Books books))).

(** GET /books/new *)
Definition get_books_new : handler :=
  fun _ => ret (Render 200 "new-book" NoLocals).

(** GET /books/:id *)
Definition get_books_id : handler :=
  fun req =>
    book <- findByPk (Req.params_id req) ;;
    ret (Render 200 "update-book" (OneBook book)).

(** POST / *)
Definition post_root : handler :=
  asyncHandler (fun req =>
    let search := Req.search (Req.body req) in
    books <- findAllWhere (search_where (pattern search)) ;;
    ret (Render 200 "index" (Books books))).

(** POST /books/new *)
Definition post_books_new : handler :=
  asyncHandler (fun req =>
    _ <- create (Req.body req) ;;
    ret (Redirect "/books")).

(** POST /books/:id *)
Definition post_books_id : handler :=
  asyncHandler (fun req =>
    book <- findByPk (Req.params_id req) ;;
    b <- deref book ;;
    _ <- update b (Req.body req) ;;
    ret (Redirect "/")).

(** POST /books/:id/delete *)
Definition post_books_id_delete : handler :=
  fun req =>
    book <- findByPk (Req.params_id req) ;;
    b <- deref book ;;
    _ <- destroy b ;;
    ret (Redirect "/books").

Inductive route : Type :=
| GetRoot | GetBooks | GetBooksNew | GetBooksId
| PostRoot | PostBooksNew | PostBooksId | PostBooksIdDelete.

Definition handle (r : route) : handler :=
  match r with
  | GetRoot => get_root
  | GetBooks => get_books
  | GetBooksNew => get_books_new
  | GetBooksId => get_books_id
  | PostRoot => post_root
  | PostBooksNew => post_books_new
  | PostBooksId => post_books_id
  | PostBooksIdDelete => post_books_id_delete
  end.

(** The table after a request was served. *)
Definition after (r : route) (req : Req.t) (st : store) : store :=
  fst (handle r req st).

(** The tables the application can be in: the empty table, and what
    serving one more request makes of a reachable table. *)
Inductive reachable : store -> Prop :=
| reach_empty : reachable empty
| reach_step r req st : reachable st -> reachable (after r req st).

End Routes.

(** ** Predicates of the statements *)

(** A row as the data model wants it at rest. *)
Definition at_rest (b : Book.t) : Prop :=
  (exists s, title b = Some s /\ s <> "")
  /\ (exists a, author b = Some a /\ a <> "").

(** A submitted field that is missing or empty. *)
Definition lacks (v : option string) : Prop := v = None \/ v = Some "".

(** The primary key: no two rows share an id. *)
Definition pk_unique (st : store) : Prop :=
  NoDup (map id (rows st)).

(** The texts of a row the search looks into. *)
Definition texts (b : Book.t) : list string :=
  let col (o : option string) := match o with Some s => [s] | None => [] end in
  col (title b) ++ col (author b) ++ col (genre b)
  ++ col (option_map Sql.cell_text (year b)).

End App.


(** ** A concrete catalogue *)

Module Sample.

Import Book App.

#[export] Instance decimal : Affinity := Sql.decimal_affinity.

Definition emma : Req.fields :=
  {| Req.title := Some "Emma"; Req.author := Some "Austen";
     Req.genre := Some "Novel"; Req.year := Some "1815";
     Req.search := None |}.

Definition post (url pk : string) (values : Req.fields) : Req.t :=
  {| Req.url := url; Req.params_id := pk; Req.body := values |}.

(** The search form holds the one field [search]. *)
Definition search_for (term : string) : Req.t :=
  post "/" ""
    {| Req.title := None; Req.author := None; Req.genre := None;
       Req.year := None; Req.search := Some term |}.

(** A creation form with a blank for a title. *)
Definition blank_title : Req.fields :=
  {| Req.title := Some " "; Req.author := Some "Austen";
     Req.genre := Some "Novel"; Req.year := Some "1815";
     Req.search := None |}.

(** A creation form without a title. *)
Definition untitled : Req.fields :=
  {| Req.title := Some ""; Req.author := Some "Austen";
     Req.genre := Some "Novel"; Req.year := Some "1815";
     Req.search := None |}.

(** An update form for Emma. *)
Definition persuasion : Req.fields :=
  {| Req.title := Some "Persuasion"; Req.author := Some "Austen";
     Req.genre := Some "Novel"; Req.year := Some "1817";
     Req.search := None |}.

(** The table after Emma was created in the empty catalogue. *)
Definition one_book : store :=
  after PostBooksNew (post "/books/new" "" emma) empty.

Definition emma_row : Book.t :=
  {| id := 1; title := Some "Emma"; author := Some "Austen";
     genre := Some "Novel"; year := Some (Sql.VInt 1815) |}.

End Sample.

(** ** Predicates on the ids *)




(** ** More requests for the sample catalogue *)

(** An update form that submits no field. *)
Definition no_fields : Req.fields :=
  {| Req.title := None; Req.author := None; Req.genre := None;
     Req.year := None; Req.search := None |}.

(** An update form with a blank for an author. *)
Definition blank_author : Req.fields :=
  {| Req.title := Some "Emma"; Req.author := Some "  ";
     Req.genre := None; Req.year := None; Req.search := None |}.

(** The catalogue after Emma was created and deleted. *)
Definition emptied {aff : Affinity} : Book.store :=
  App.after App.PostBooksIdDelete
    (Sample.post "/books/1/delete" "1" Sample.emma)
    (App.after App.PostBooksNew
       (Sample.post "/books/new" "" Sample.emma) Book.empty).


(** * Properties *)

(** ** Strings and LIKE *)

Lemma append_nil_r (s : string) : s ++ "" = s.
Proof. induction s as [|c s IH]; simpl; [reflexivity | now rewrite IH]. Qed.

Lemma append_assoc (a b c : string) : (a ++ b) ++ c = a ++ b ++ c.
Proof. induction a as [|x a IH]; simpl; [reflexivity | now rewrite IH]. Qed.

Lemma notEmpty_nonempty (s : string) : Book.notEmpty s = true -> s <> "".
Proof. intros H ->. discriminate H. Qed.

Lemma substring_from_books (s : string) :
  Str.substring_from 7 ("/books/" ++ s) = s.
Proof. reflexivity. Qed.

Lemma ceq_fold (c d : ascii) : Str.ceq c d = true <-> Str.lower d = Str.lower c.
Proof.
  unfold Str.ceq. rewrite Ascii.eqb_eq. split; congruence.
Qed.

(** The unfolding of [like] at a pattern that starts with [%]. *)
Lemma like_percent (p s : string) :
  Sql.like (String "%" p) s
  = Sql.like p s
    || match s with
       | EmptyString => false
       | String _ s' => Sql.like (String "%" p) s'
       end.
Proof. destruct s; reflexivity. Qed.

Lemma like_plain (c : ascii) (p s : string) :
  Str.is_wildcard c = false ->
  Sql.like (String c p) s
  = match s with
    | EmptyString => false
    | String d s' => Str.ceq c d && Sql.like p s'
    end.
Proof.
  unfold Str.is_wildcard. intros H. apply orb_false_elim in H as [H1 H2].
  simpl. rewrite H1, H2. destruct s; reflexivity.
Qed.

(** [%p] matches [s] when [p] matches some suffix of [s]. *)
Lemma like_percent_iff (p s : string) :
  Sql.like (String "%" p) s = true
  <-> exists pre post, s = pre ++ post /\ Sql.like p post = true.
Proof.
  induction s as [|d s IH]; rewrite like_percent.
  - rewrite orb_false_r. split.
    + intros H. now exists "", "".
    + intros (pre & post & E & H). destruct pre; simpl in E; [|discriminate].
      now subst.
  - rewrite orb_true_iff, IH. split.
    + intros [H | (pre & post & E & H)].
      * now exists "", (String d s).
      * exists (String d pre), post. simpl. now rewrite E.
    + intros (pre & post & E & H). destruct pre as [|x pre]; simpl in E.
      * left. now subst.
      * right. injection E as _ E. now exists pre, post.
Qed.

Lemma like_all (s : string) : Sql.like "%" s = true.
Proof. apply like_percent_iff. exists s, "". now rewrite append_nil_r. Qed.

(** A pattern without wildcards followed by [%] matches the strings that
    start with it, up to letter case. *)
Lemma like_prefix_iff (t s : string) :
  Str.has_wildcard t = false ->
  Sql.like (t ++ "%") s = true
  <-> exists mid post, s = mid ++ post /\ Str.fold_case mid = Str.fold_case t.
Proof.
  revert s. induction t as [|c t IH]; intros s W.
  - simpl append. split.
    + intros _. now exists "", s.
    + intros _. apply like_all.
  - simpl in W. apply orb_false_elim in W as [Wc Wt].
    change (String c t ++ "%") with (String c (t ++ "%")).
    rewrite (like_plain _ _ _ Wc). destruct s as [|d s].
    + split; [discriminate|].
      intros (mid & post & E & F). destruct mid; simpl in *; discriminate.
    + rewrite andb_true_iff, ceq_fold, (IH s Wt). split.
      * intros (L & mid & post & E & F).
        exists (String d mid), post. simpl. now rewrite E, L, F.
      * intros (mid & post & E & F). destruct mid as [|x mid]; simpl in *.
        -- discriminate.
        -- injection E as -> E. injection F as L F.
           split; [exact L|]. now exists mid, post.
Qed.

(** The search pattern of a term without wildcards matches the strings
    that hold the term, up to letter case. *)
Lemma like_term_iff (t s : string) :
  Str.has_wildcard t = false ->
  Sql.like ("%" ++ t ++ "%") s = true <-> Str.ci_substring_of t s.
Proof.
  intros W. change ("%" ++ t ++ "%") with (String "%" (t ++ "%")).
  rewrite like_percent_iff. unfold Str.ci_substring_of. split.
  - intros (pre & rest & E & H). apply (like_prefix_iff _ _ W) in H.
    destruct H as (mid & post & E' & F). exists pre, mid, post. now subst.
  - intros (pre & mid & post & E & F). exists pre, (mid ++ post).
    split; [exact E|]. apply (like_prefix_iff _ _ W). now exists mid, post.
Qed.

(** ** The handlers *)

Import Book App.

Section Properties.

Context {aff : Affinity}.

Lemma required_nil (path : string) (v : option string) :
  required path v = [] <-> exists s, v = Some s /\ notEmpty s = true.
Proof.
  unfold required. destruct v as [s|].
  - destruct (notEmpty s) eqn:E; split.
    + intros _. now exists s.
    + reflexivity.
    + discriminate.
    + intros (s' & [= <-] & H). congruence.
  - split; [discriminate | intros (s & H & _); discriminate].
Qed.

Lemma validate_new_nil (values : Req.fields) :
  validate_new values = []
  <-> (exists t, Req.title values = Some t /\ notEmpty t = true)
      /\ (exists a, Req.author values = Some a /\ notEmpty a = true).
Proof.
  unfold validate_new. rewrite <- !required_nil. split.
  - intros H. now apply app_eq_nil in H.
  - intros [-> ->]. reflexivity.
Qed.

(** A rejected [create] throws a validation error and writes nothing. *)
Lemma create_rejects (values : Req.fields) (st : store) :
  validate_new values <> [] ->
  create values st
  = (st, Thrown (SequelizeValidationError (validate_new values))).
Proof.
  unfold create. destruct (validate_new values); [congruence | reflexivity].
Qed.

Lemma create_accepts (values : Req.fields) (st : store) :
  validate_new values = [] ->
  create values st
  = (inserted values st, Returned (build (next_id st) values)).
Proof. unfold create. now intros ->. Qed.

Lemma update_rejects (b : Book.t) (values : Req.fields) (st : store) :
  validate_changed values <> [] ->
  update b values st
  = (st, Thrown (SequelizeValidationError (validate_changed values))).
Proof.
  unfold update. destruct (validate_changed values); [congruence | reflexivity].
Qed.

(** What the wrapper answers when the wrapped handler throws. *)
Lemma asyncHandler_catches (cb : handler) (req : Req.t) (st st' : store)
      (e : error) :
  cb req st = (st', Thrown e) ->
  asyncHandler cb req st
  = (st',
     Returned
       (if String.eqb (name e) "SequelizeValidationError" then
          if String.eqb (Req.url req) "/books/new" then
            Render 200 "new-book"
              (NewForm (Req.title (Req.body req)) (Req.author (Req.body req))
                 (Req.genre (Req.body req)) (Req.year (Req.body req)) true)
          else
            Render 200 "update-book"
              (UpdateForm (Str.substring_from 7 (Req.url req))
                 (Req.title (Req.body req)) (Req.author (Req.body req))
                 (Req.genre (Req.body req)) (Req.year (Req.body req)) true)
        else error_page)).
Proof.
  intros H. unfold asyncHandler, try_catch. rewrite H.
  destruct (String.eqb (name e) _); [|reflexivity].
  destruct (String.eqb (Req.url req) _); reflexivity.
Qed.

Lemma asyncHandler_returns (cb : handler) (req : Req.t) (st st' : store)
      (r : response) :
  cb req st = (st', Returned r) -> asyncHandler cb req st = (st', Returned r).
Proof. intros H. unfold asyncHandler, try_catch. now rewrite H. Qed.

(** A wrapped handler never lets an error escape. *)
Lemma asyncHandler_responds (cb : handler) (req : Req.t) (st : store) :
  exists st' r, asyncHandler cb req st = (st', Returned r).
Proof.
  destruct (cb req st) as [st' [r|e]] eqn:E.
  - exists st', r. now apply asyncHandler_returns.
  - eexists st', _. exact (asyncHandler_catches _ _ _ _ _ E).
Qed.

(** C2. Posting the creation form with an empty title to /books/new fails
    validation on the title, leaves the table as it was, and renders the
    creation form again with the submitted author, genre and year and the
    alert set. *)
Theorem create_empty_title_rerenders (st : store) (req : Req.t) :
  Req.url req = "/books/new" ->
  Req.title (Req.body req) = Some "" ->
  (exists paths,
      create (Req.body req) st = (st, Thrown (SequelizeValidationError paths))
      /\ In "title" paths)
  /\ post_books_new req st
     = (st,
        Returned
          (Render 200 "new-book"
             (NewForm (Some "") (Req.author (Req.body req))
                (Req.genre (Req.body req)) (Req.year (Req.body req)) true))).
Proof.
  intros U T.
  assert (V : validate_new (Req.body req)
              = "title" :: required "author" (Req.author (Req.body req))).
  { unfold validate_new. now rewrite T. }
  assert (C : create (Req.body req) st
              = (st, Thrown (SequelizeValidationError
                               (validate_new (Req.body req))))).
  { apply create_rejects. now rewrite V. }
  split.
  - eexists. split; [exact C|]. rewrite V. now left.
  - unfold post_books_new.
    erewrite asyncHandler_catches.
    2:{ cbv beta. unfold bind. rewrite C. reflexivity. }
    simpl. now rewrite U, T.
Qed.

Lemma max_id_bound (l : list Book.t) (b : Book.t) :
  In b l -> id b <= max_id l.
Proof.
  induction l as [|x l IH]; simpl; [easy|].
  intros [-> | H]; [lia | specialize (IH H); lia].
Qed.

(** The id AUTOINCREMENT hands out is held by no row. *)
Lemma next_id_fresh (st : store) : ~ In (next_id st) (map id (rows st)).
Proof.
  intros H. apply in_map_iff in H as (b & E & H).
  apply max_id_bound in H. unfold next_id in E. lia.
Qed.

(** C3, amended. Posting a creation form whose title and author each hold
    a character that is not white space inserts one row, under an id no
    row held, with the submitted title, author and genre and the year as
    the column stores it, and redirects to /books; the listing served
    afterwards holds the new row. *)
Theorem create_persists (st : store) (req : Req.t) (t a : string) :
  Req.title (Req.body req) = Some t -> Str.blank t = false ->
  Req.author (Req.body req) = Some a -> Str.blank a = false ->
  exists b st',
    post_books_new req st = (st', Returned (Redirect "/books"))
    /\ rows st' = (rows st ++ [b])%list
    /\ ~ In (id b) (map id (rows st))
    /\ title b = Some t
    /\ author b = Some a
    /\ genre b = Req.genre (Req.body req)
    /\ year b = option_map integer_affinity (Req.year (Req.body req))
    /\ forall req',
        exists books,
          get_books req' st' = (st', Returned (Render 200 "index" (Books books)))
          /\ In b books.
Proof.
  intros T Bt A Ba.
  assert (V : validate_new (Req.body req) = []).
  { apply validate_new_nil. unfold notEmpty. split.
    - exists t. now rewrite Bt.
    - exists a. now rewrite Ba. }
  exists (build (next_id st) (Req.body req)). eexists.
  split; [|split; [|split; [|split; [|split; [|split; [|split]]]]]].
  - unfold post_books_new. apply asyncHandler_returns.
    unfold bind. rewrite (create_accepts _ _ V). reflexivity.
  - reflexivity.
  - apply next_id_fresh.
  - exact T.
  - exact A.
  - reflexivity.
  - reflexivity.
  - intros req'. eexists. split; [reflexivity|].
    simpl. apply in_or_app. right. now left.
Qed.

(** The fetch of an absent id yields [null]; [update] on it is a
    TypeError, which the wrapper answers with the error page. *)
Lemma missing_record_update (st : store) (req : Req.t) :
  lookup (Req.params_id req) st = None ->
  post_books_id req st = (st, Returned error_page).
Proof.
  intros L. unfold post_books_id.
  erewrite asyncHandler_catches with (e := TypeError); [reflexivity|].
  cbv beta. unfold bind, findByPk. rewrite L. reflexivity.
Qed.

(** With the record present, the update route redirects or renders the
    form again. *)
Lemma present_record_update (st : store) (req : Req.t) (b : Book.t) :
  lookup (Req.params_id req) st = Some b ->
  (exists st', post_books_id req st = (st', Returned (Redirect "/")))
  \/ (exists view data,
        post_books_id req st = (st, Returned (Render 200 view data))).
Proof.
  intros L. unfold post_books_id.
  destruct (validate_changed (Req.body req)) as [|p ps] eqn:V.
  - left. eexists. apply asyncHandler_returns.
    unfold bind, findByPk, update. rewrite L, V. reflexivity.
  - right.
    assert (E : (fun req0 : Req.t =>
                   book <- findByPk (Req.params_id req0);;
                   b0 <- deref book;;
                   _ <- update b0 (Req.body req0);; ret (Redirect "/")) req st
                = (st, Thrown (SequelizeValidationError (p :: ps)))).
    { unfold bind, findByPk, update. rewrite L, V. reflexivity. }
    rewrite (asyncHandler_catches _ _ _ _ _ E). simpl.
    destruct (String.eqb (Req.url req) "/books/new"); eauto.
Qed.

(** C8, amended. Updating an id the table does not hold leaves the table
    as it was and answers with the generic error page (status 500), not
    with the not-found page; no update of a record that is present
    answers with that page. *)
Theorem update_absent_id_error_page (st : store) (req : Req.t) :
  lookup (Req.params_id req) st = None ->
  post_books_id req st = (st, Returned error_page)
  /\ error_page <> page_not_found
  /\ forall st0 req0,
      lookup (Req.params_id req0) st0 <> None ->
      snd (post_books_id req0 st0) <> Returned error_page.
Proof.
  intros L. split; [now apply missing_record_update|]. split; [discriminate|].
  intros st0 req0 P.
  destruct (lookup (Req.params_id req0) st0) as [b|] eqn:E; [|congruence].
  destruct (present_record_update _ _ _ E) as [[st' H] | (view & data & H)];
    rewrite H; discriminate.
Qed.

(** C10. Deleting an id the table does not hold: the fetch yields no
    record, the call of [destroy] on it throws, the handler ends with that
    error and without a response, and the table is as it was; the two
    other routes that write, being wrapped, always answer. *)
Theorem delete_absent_id_throws (st : store) (req : Req.t) :
  lookup (Req.params_id req) st = None ->
  findByPk (Req.params_id req) st = (st, Returned None)
  /\ post_books_id_delete req st = (st, Thrown TypeError)
  /\ (forall req0 st0, exists st1 r,
        post_books_new req0 st0 = (st1, Returned r))
  /\ (forall req0 st0, exists st1 r,
        post_books_id req0 st0 = (st1, Returned r)).
Proof.
  intros L. split; [|split; [|split]].
  - unfold findByPk. now rewrite L.
  - unfold post_books_id_delete, bind, findByPk. rewrite L. reflexivity.
  - intros. apply asyncHandler_responds.
  - intros. apply asyncHandler_responds.
Qed.

(** *** The table each route leaves *)

Lemma asyncHandler_store (cb : handler) (req : Req.t) (st : store) :
  fst (asyncHandler cb req st) = fst (cb req st).
Proof.
  destruct (cb req st) as [st' [r|e]] eqn:E.
  - now rewrite (asyncHandler_returns _ _ _ _ _ E).
  - now rewrite (asyncHandler_catches _ _ _ _ _ E).
Qed.

Lemma after_create (req : Req.t) (st : store) :
  after PostBooksNew req st
  = match validate_new (Req.body req) with
    | [] => inserted (Req.body req) st
    | _ => st
    end.
Proof.
  unfold after, handle, post_books_new. rewrite asyncHandler_store.
  unfold bind, create. now destruct (validate_new (Req.body req)).
Qed.

Lemma after_update (req : Req.t) (st : store) :
  after PostBooksId req st
  = match lookup (Req.params_id req) st, validate_changed (Req.body req) with
    | Some b, [] => written (Req.body req) (id b) st
    | _, _ => st
    end.
Proof.
  unfold after, handle, post_books_id. rewrite asyncHandler_store.
  unfold bind, findByPk, update.
  destruct (lookup (Req.params_id req) st); [|reflexivity].
  now destruct (validate_changed (Req.body req)).
Qed.

Lemma after_delete (req : Req.t) (st : store) :
  after PostBooksIdDelete req st
  = match lookup (Req.params_id req) st with
    | Some b => deleted (id b) st
    | None => st
    end.
Proof.
  unfold after, handle, post_books_id_delete, bind, findByPk.
  now destruct (lookup (Req.params_id req) st).
Qed.

Lemma after_read (r : route) (req : Req.t) (st : store) :
  r <> PostBooksNew -> r <> PostBooksId -> r <> PostBooksIdDelete ->
  after r req st = st.
Proof.
  intros N U D. unfold after.
  destruct r; try congruence; try reflexivity;
    unfold handle, get_root, get_books, post_root;
    now rewrite asyncHandler_store.
Qed.


(** *** Rows and ids *)

Lemma set_id (values : Req.fields) (b : Book.t) : id (set values b) = id b.
Proof. reflexivity. Qed.

Lemma has_id_true (k : Z) (b : Book.t) : has_id k b = true <-> id b = k.
Proof. unfold has_id. apply Z.eqb_eq. Qed.

Lemma lookup_some (pk : string) (st : store) (b : Book.t) :
  lookup pk st = Some b ->
  In b (rows st)
  /\ integer_affinity pk = Sql.VInt (id b)
  /\ find (has_id (id b)) (rows st) = Some b.
Proof.
  unfold lookup. destruct (integer_affinity pk) as [k|]; [|discriminate].
  intros F. destruct (find_some _ _ F) as [I H].
  apply has_id_true in H. subst k. auto.
Qed.

(** Under the primary key, rows of one id are one row. *)
Lemma pk_same_row (l : list Book.t) (x y : Book.t) :
  NoDup (map id l) -> In x l -> In y l -> id x = id y -> x = y.
Proof.
  induction l as [|z l IH]; simpl; [easy|].
  intros N Hx Hy E. inversion N as [|? ? Nz Nl]; subst.
  destruct Hx as [-> | Hx], Hy as [-> | Hy]; auto.
  - exfalso. apply Nz. rewrite E. now apply in_map.
  - exfalso. apply Nz. rewrite <- E. now apply in_map.
Qed.

Lemma written_ids (values : Req.fields) (k : Z) (st : store) :
  map id (rows (written values k st)) = map id (rows st).
Proof.
  simpl. rewrite map_map. apply map_ext. intros r.
  now destruct (has_id k r).
Qed.

Lemma written_find (values : Req.fields) (k j : Z) (l : list Book.t) :
  find (has_id j) (map (fun r => if has_id k r then set values r else r) l)
  = option_map (fun r => if has_id k r then set values r else r)
               (find (has_id j) l).
Proof.
  induction l as [|x l IH]; simpl; [reflexivity|].
  assert (E : has_id j (if has_id k x then set values x else x) = has_id j x)
    by now destruct (has_id k x).
  rewrite E. now destruct (has_id j x).
Qed.

Lemma deleted_in (k : Z) (st : store) (r : Book.t) :
  In r (rows (deleted k st)) <-> In r (rows st) /\ id r <> k.
Proof.
  simpl. rewrite filter_In, negb_true_iff, <- not_true_iff_false, has_id_true.
  reflexivity.
Qed.

Lemma deleted_find (k : Z) (l : list Book.t) :
  find (has_id k) (filter (fun r => negb (has_id k r)) l) = None.
Proof.
  induction l as [|x l IH]; simpl; [reflexivity|].
  destruct (has_id k x) eqn:E; simpl; [exact IH | now rewrite E].
Qed.

(** *** What every route preserves *)

Lemma build_at_rest (k : Z) (values : Req.fields) :
  validate_new values = [] -> at_rest (build k values).
Proof.
  intros V. apply validate_new_nil in V as [(t & T & Ht) (a & A & Ha)].
  split; [exists t | exists a]; simpl; auto using notEmpty_nonempty.
Qed.

Lemma provided_nil (path : string) (v : option string) :
  provided path v = [] -> forall s, v = Some s -> s <> "".
Proof.
  unfold provided. intros H s ->.
  destruct (notEmpty s) eqn:E; [now apply notEmpty_nonempty | discriminate].
Qed.

Lemma set_at_rest (values : Req.fields) (b : Book.t) :
  validate_changed values = [] -> at_rest b -> at_rest (set values b).
Proof.
  unfold validate_changed. intros V [(t & T & Ht) (a & A & Ha)].
  apply app_eq_nil in V as [Vt Va]. split; simpl.
  - destruct (Req.title values) as [t'|] eqn:E; simpl.
    + exists t'. split; [reflexivity|]. now apply (provided_nil _ _ Vt).
    + now exists t.
  - destruct (Req.author values) as [a'|] eqn:E; simpl.
    + exists a'. split; [reflexivity|]. now apply (provided_nil _ _ Va).
    + now exists a.
Qed.

Lemma after_at_rest (r : route) (req : Req.t) (st : store) :
  Forall at_rest (rows st) -> Forall at_rest (rows (after r req st)).
Proof.
  intros H. destruct r; try (rewrite after_read; [exact H | discriminate ..]).
  - rewrite after_create.
    destruct (validate_new (Req.body req)) eqn:V; [|exact H].
    simpl. apply Forall_app. split; [exact H|].
    constructor; [now apply build_at_rest | constructor].
  - rewrite after_update.
    destruct (lookup (Req.params_id req) st) as [b|]; [|exact H].
    destruct (validate_changed (Req.body req)) eqn:V; [|exact H].
    simpl. apply Forall_forall. intros x Hx.
    apply in_map_iff in Hx as (y & <- & Hy).
    rewrite Forall_forall in H. specialize (H y Hy).
    destruct (has_id (id b) y); [now apply set_at_rest | exact H].
  - rewrite after_delete.
    destruct (lookup (Req.params_id req) st); [|exact H].
    simpl. apply Forall_forall. intros x Hx.
    apply filter_In in Hx as [Hx _]. rewrite Forall_forall in H. auto.
Qed.

Lemma deleted_ids_nodup (k : Z) (l : list Book.t) :
  NoDup (map id l) ->
  NoDup (map id (filter (fun r => negb (has_id k r)) l)).
Proof.
  induction l as [|x l IH]; simpl; [easy|].
  intros N. inversion N as [|? ? Nx Nl]; subst.
  destruct (negb (has_id k x)); simpl; [|auto].
  constructor; [|auto]. intros I. apply Nx.
  apply in_map_iff in I as (y & E & Hy). apply filter_In in Hy as [Hy _].
  rewrite <- E. now apply in_map.
Qed.

Lemma after_pk_unique (r : route) (req : Req.t) (st : store) :
  pk_unique st -> pk_unique (after r req st).
Proof.
  unfold pk_unique. intros H.
  destruct r; try (rewrite after_read; [exact H | discriminate ..]).
  - rewrite after_create.
    destruct (validate_new (Req.body req)); [|exact H].
    simpl. rewrite map_app. simpl.
    apply NoDup_app; [exact H | constructor; [easy | constructor] |].
    intros k I [<- | []]. now apply (next_id_fresh st).
  - rewrite after_update.
    destruct (lookup (Req.params_id req) st); [|exact H].
    destruct (validate_changed (Req.body req)); [|exact H].
    now rewrite written_ids.
  - rewrite after_delete.
    destruct (lookup (Req.params_id req) st); [|exact H].
    now apply deleted_ids_nodup.
Qed.

(** Every table the application reaches keeps the primary key. *)
Lemma reachable_pk_unique (st : store) : reachable st -> pk_unique st.
Proof.
  induction 1 as [|r req st _ IH]; [constructor | now apply after_pk_unique].
Qed.

(** C1. In every table the application reaches, each row has a title and
    an author that are neither null nor empty, and serving any request
    keeps it so; a creation that lacks the title or the author, and an
    update that submits an empty title or author, leave the table as it
    was. *)
Theorem reachable_rows_at_rest (st : store) :
  reachable st ->
  Forall at_rest (rows st)
  /\ (forall r req, Forall at_rest (rows (after r req st)))
  /\ (forall req,
        lacks (Req.title (Req.body req)) \/ lacks (Req.author (Req.body req)) ->
        after PostBooksNew req st = st)
  /\ (forall req,
        Req.title (Req.body req) = Some ""
        \/ Req.author (Req.body req) = Some "" ->
        after PostBooksId req st = st).
Proof.
  intros R.
  assert (I : Forall at_rest (rows st)).
  { induction R as [|r req st _ IH]; [constructor | now apply after_at_rest]. }
  split; [exact I|]. split; [intros; now apply after_at_rest|]. split.
  - intros req L. rewrite after_create.
    destruct (validate_new (Req.body req)) eqn:V; [|reflexivity].
    apply validate_new_nil in V as [(t & T & Ht) (a & A & Ha)].
    apply notEmpty_nonempty in Ht, Ha.
    destruct L as [[L | L] | [L | L]]; congruence.
  - intros req L. rewrite after_update.
    destruct (lookup (Req.params_id req) st); [|reflexivity].
    destruct (validate_changed (Req.body req)) eqn:V; [|reflexivity].
    unfold validate_changed in V. apply app_eq_nil in V as [Vt Va].
    destruct L as [L | L].
    + now destruct (provided_nil _ _ Vt _ L).
    + now destruct (provided_nil _ _ Va _ L).
Qed.


(** *** Search *)

Lemma holds_or3 (a b : Sql.tv) :
  Sql.holds (Sql.or3 a b) = Sql.holds a || Sql.holds b.
Proof. destruct a as [[]|], b as [[]|]; reflexivity. Qed.

Lemma holds_col_like (col : option string) (p : string) :
  Sql.holds (Sql.col_like col p) = true
  <-> exists s, col = Some s /\ Sql.like p s = true.
Proof.
  destruct col as [s|]; simpl.
  - destruct (Sql.like p s) eqn:E; split.
    + intros _. now exists s.
    + reflexivity.
    + discriminate.
    + intros (s' & [= <-] & H). congruence.
  - split; [discriminate | intros (s & H & _); discriminate].
Qed.

Lemma in_texts (b : Book.t) (s : string) :
  In s (texts b)
  <-> title b = Some s \/ author b = Some s \/ genre b = Some s
      \/ option_map Sql.cell_text (year b) = Some s.
Proof.
  unfold texts. rewrite !in_app_iff.
  destruct (title b), (author b), (genre b),
    (option_map Sql.cell_text (year b)); simpl;
    intuition (try discriminate; try congruence).
Qed.

(** The search filter keeps the rows one of whose texts the pattern
    matches. *)
Lemma search_where_holds (p : string) (b : Book.t) :
  Sql.holds (search_where p b) = true
  <-> exists s, In s (texts b) /\ Sql.like p s = true.
Proof.
  unfold search_where, like_title, like_author, like_genre, like_year.
  rewrite !holds_or3, !orb_true_iff, !holds_col_like. split.
  - intros [(s & E & L) | [(s & E & L) | [(s & E & L) | (s & E & L)]]];
      exists s; rewrite in_texts; auto.
  - intros (s & I & L). apply in_texts in I.
    destruct I as [I | [I | [I | I]]]; eauto 6.
Qed.

Lemma Book_eq_dec (x y : Book.t) : {x = y} + {x <> y}.
Proof.
  repeat decide equality.
Qed.

(** What the search route answers. *)
Lemma post_root_listing (req : Req.t) (st : store) :
  post_root req st
  = (st,
     Returned
       (Render 200 "index"
          (Books
             (filter
                (fun b =>
                   Sql.holds
                     (search_where (pattern (Req.search (Req.body req))) b))
                (rows st))))).
Proof. reflexivity. Qed.

Lemma filter_all {A} (f : A -> bool) (l : list A) :
  (forall x, In x l -> f x = true) -> filter f l = l.
Proof.
  induction l as [|x l IH]; simpl; [reflexivity|].
  intros H. rewrite (H x) by now left. f_equal. apply IH. auto.
Qed.

Lemma filter_none {A} (f : A -> bool) (l : list A) :
  (forall x, In x l -> f x = false) -> filter f l = [].
Proof.
  induction l as [|x l IH]; simpl; [reflexivity|].
  intros H. rewrite (H x) by now left. apply IH. auto.
Qed.

(** C5. On a table whose rows have their title and author, the search for
    the empty term answers with every row, as the listing does, whatever
    the genre and the year of a row, null included. *)
Theorem search_empty_term_lists_all (st : store) (req : Req.t) :
  Forall at_rest (rows st) ->
  Req.search (Req.body req) = Some "" ->
  post_root req st = (st, Returned (Render 200 "index" (Books (rows st))))
  /\ post_root req st = get_books req st.
Proof.
  intros I S.
  assert (E : post_root req st
              = (st, Returned (Render 200 "index" (Books (rows st))))).
  { rewrite post_root_listing, S. do 4 f_equal. apply filter_all.
    intros b Hb. rewrite Forall_forall in I.
    destruct (I b Hb) as [(t & T & _) _].
    apply search_where_holds. exists t. split.
    - apply in_texts. now left.
    - apply like_percent_iff. exists "", t. split; [reflexivity|].
      apply like_all. }
  split; [exact E|]. rewrite E. reflexivity.
Qed.

(** C4, amended. For a term that holds neither [%] nor [_], the search
    answers with the rows one of whose title, author, genre or year as
    text holds the term up to the case of ASCII letters, a null column
    holding nothing.  So a term only the genre of one row holds brings
    that row alone, and a term no row holds brings the empty listing. *)
Theorem search_finds_substrings (st : store) (req : Req.t) (term : string) :
  Req.search (Req.body req) = Some term ->
  Str.has_wildcard term = false ->
  exists found,
    post_root req st = (st, Returned (Render 200 "index" (Books found)))
    /\ (forall b,
          In b found
          <-> In b (rows st)
              /\ exists s, In s (texts b) /\ Str.ci_substring_of term s)
    /\ (forall b g,
          In b (rows st) -> genre b = Some g -> Str.ci_substring_of term g ->
          (forall b' s, In b' (rows st) -> b' <> b -> In s (texts b') ->
                        ~ Str.ci_substring_of term s) ->
          forall x, In x found <-> x = b)
    /\ ((forall b s, In b (rows st) -> In s (texts b) ->
                     ~ Str.ci_substring_of term s) ->
        found = []).
Proof.
  intros S W. eexists. split; [apply post_root_listing|]. rewrite S.
  assert (K : forall b,
             Sql.holds (search_where (pattern (Some term)) b) = true
             <-> exists s, In s (texts b) /\ Str.ci_substring_of term s).
  { intros b. rewrite search_where_holds. unfold pattern, Req.to_string.
    split; intros (s & I & L); exists s; split; auto;
      now apply (like_term_iff _ _ W). }
  assert (F : forall b,
             In b (filter (fun b0 =>
                             Sql.holds (search_where (pattern (Some term)) b0))
                     (rows st))
             <-> In b (rows st)
                 /\ exists s, In s (texts b) /\ Str.ci_substring_of term s).
  { intros b. now rewrite filter_In, K. }
  split; [exact F|]. split.
  - intros b g Hb G C Only x. rewrite F. split.
    + intros (Hx & s & I & L).
      destruct (Book_eq_dec x b) as [E|N]; [exact E|].
      now destruct (Only x s Hx N I).
    + intros ->. split; [exact Hb|]. exists g. split; [|exact C].
      apply in_texts. auto.
  - intros No. apply filter_none. intros b Hb.
    apply not_true_iff_false. rewrite K. intros (s & I & L).
    now apply (No b s).
Qed.


(** *** Update and delete *)

(** C6. Updating a record that is present, with a title and an author
    submitted, keeps the ids of the table, the updated record's among
    them.  When the submission is valid the record takes the submitted
    title, author, genre and year (a field the form leaves out keeps its
    value), and when it is rejected the record stays as it was; every
    other row of the table is the same before and after. *)
Theorem update_changes_only_target (st : store) (req : Req.t) (b : Book.t)
        (t a : string) :
  pk_unique st ->
  lookup (Req.params_id req) st = Some b ->
  Req.title (Req.body req) = Some t ->
  Req.author (Req.body req) = Some a ->
  let st' := after PostBooksId req st in
  exists b',
    map id (rows st') = map id (rows st)
    /\ lookup (Req.params_id req) st' = Some b'
    /\ id b' = id b
    /\ (if notEmpty t && notEmpty a
        then title b' = Some t
             /\ author b' = Some a
             /\ genre b' = or_old (Req.genre (Req.body req)) (genre b)
             /\ year b' = or_old (option_map integer_affinity
                                    (Req.year (Req.body req))) (year b)
        else b' = b)
    /\ (forall r, r <> b -> In r (rows st) -> In r (rows st'))
    /\ (forall r, r <> b' -> In r (rows st') -> In r (rows st)).
Proof.
  intros U L T A st'.
  destruct (lookup_some _ _ _ L) as (Ib & Aff & Fb).
  assert (V : validate_changed (Req.body req)
              = ((if notEmpty t then [] else ["title"])
                 ++ (if notEmpty a then [] else ["author"]))%list).
  { unfold validate_changed. now rewrite T, A. }
  assert (E : st' = if notEmpty t && notEmpty a
                    then written (Req.body req) (id b) st else st).
  { unfold st'. rewrite after_update, L, V.
    destruct (notEmpty t), (notEmpty a); reflexivity. }
  destruct (notEmpty t && notEmpty a) eqn:Ok.
  - exists (set (Req.body req) b). rewrite E.
    split; [apply written_ids|]. split; [|split; [reflexivity|split; [|split]]].
    + unfold lookup. rewrite Aff. simpl. rewrite written_find, Fb. simpl.
      now rewrite (proj2 (has_id_true (id b) b)).
    + simpl. now rewrite T, A.
    + intros r N Ir. simpl. apply in_map_iff. exists r. split; [|exact Ir].
      destruct (has_id (id b) r) eqn:H; [|reflexivity].
      apply has_id_true in H. now destruct N; apply (pk_same_row (rows st)).
    + intros r N Ir. simpl in Ir. apply in_map_iff in Ir as (x & <- & Ix).
      destruct (has_id (id b) x) eqn:H; [|exact Ix].
      apply has_id_true in H.
      assert (x = b) by now apply (pk_same_row (rows st)).
      subst x. now destruct N.
  - exists b. rewrite E. repeat split; auto.
Qed.

(** C7. Deleting a record that is present redirects to /books and removes
    that record and no other: the listing served afterwards does not hold
    it, the fetch by its id yields no record, and every other row is in
    the table after the deletion exactly when it was before. *)
Theorem delete_removes_exactly (st : store) (req : Req.t) (b : Book.t) :
  pk_unique st ->
  lookup (Req.params_id req) st = Some b ->
  exists st',
    post_books_id_delete req st = (st', Returned (Redirect "/books"))
    /\ (forall req',
          exists books,
            get_books req' st'
            = (st', Returned (Render 200 "index" (Books books)))
            /\ ~ In b books)
    /\ findByPk (Req.params_id req) st' = (st', Returned None)
    /\ (forall r, r <> b -> In r (rows st') <-> In r (rows st)).
Proof.
  intros U L. destruct (lookup_some _ _ _ L) as (Ib & Aff & Fb).
  exists (deleted (id b) st). split; [|split; [|split]].
  - unfold post_books_id_delete, bind, findByPk. rewrite L. reflexivity.
  - intros req'. exists (rows (deleted (id b) st)). split; [reflexivity|].
    rewrite deleted_in. tauto.
  - unfold findByPk, lookup. rewrite Aff. simpl. now rewrite deleted_find.
  - intros r N. rewrite deleted_in. split; [tauto|].
    intros Ir. split; [exact Ir|]. intros E. apply N.
    now apply (pk_same_row (rows st)).
Qed.


End Properties.

(** ** Further properties of the handlers *)

Section Further.

Context {aff : Affinity}.

(** X1. A wrapped handler always answers: it leaves the table as the
    wrapped callback left it, passes on the response the callback
    returned, and turns every error the callback throws into a response. *)
Theorem wrapper_always_answers (cb : handler) (req : Req.t) (st : store) :
  exists r,
    asyncHandler cb req st = (fst (cb req st), Returned r)
    /\ forall r0, snd (cb req st) = Returned r0 -> r = r0.
Proof.
  destruct (cb req st) as [st' [r|e]] eqn:E.
  - exists r. rewrite (asyncHandler_returns _ _ _ _ _ E).
    split; [reflexivity|]. simpl. now intros r0 [= ->].
  - eexists. rewrite (asyncHandler_catches _ _ _ _ _ E).
    split; [reflexivity|]. simpl. discriminate.
Qed.

(** X2. The routes that only read (GET /, GET /books, GET /books/new,
    GET /books/:id and the search POST /) answer every request and leave
    the table as it was. *)
Theorem read_routes_write_nothing (r : route) (req : Req.t) (st : store) :
  r <> PostBooksNew -> r <> PostBooksId -> r <> PostBooksIdDelete ->
  exists resp, handle r req st = (st, Returned resp).
Proof.
  intros N U D. destruct r; try congruence; eexists; reflexivity.
Qed.

Lemma required_cases (path : string) (v : option string) :
  (required path v = [] /\ exists s, v = Some s /\ Str.blank s = false)
  \/ (required path v = [path]
      /\ ~ exists s, v = Some s /\ Str.blank s = false).
Proof.
  unfold required, notEmpty. destruct v as [s|].
  - destruct (Str.blank s) eqn:B; simpl.
    + right. split; [reflexivity|]. intros (s' & [= <-] & H). congruence.
    + left. split; [reflexivity|]. now exists s.
  - right. split; [reflexivity|]. intros (s & H & _). discriminate.
Qed.

(** X3. [Book.create] either inserts, when the title and the author each
    hold a character that is not white space, or writes nothing and
    throws a validation error that names every failing attribute: title
    when the title is missing or blank, author when the author is. *)
Theorem create_reports_each_failing_attribute (values : Req.fields)
        (st : store) :
  let ok (v : option string) := exists s, v = Some s /\ Str.blank s = false in
  (ok (Req.title values) /\ ok (Req.author values)
   /\ create values st
      = (inserted values st, Returned (build (next_id st) values)))
  \/ (exists paths,
        create values st = (st, Thrown (SequelizeValidationError paths))
        /\ (In "title" paths <-> ~ ok (Req.title values))
        /\ (In "author" paths <-> ~ ok (Req.author values))
        /\ paths <> []).
Proof.
  intros ok. unfold create, validate_new.
  destruct (required_cases "title" (Req.title values)) as [[Et Ht] | [Et Ht]],
      (required_cases "author" (Req.author values)) as [[Ea Ha] | [Ea Ha]];
    rewrite Et, Ea; simpl.
  - left. auto.
  - right. eexists. split; [reflexivity|]. simpl.
    repeat split; try tauto; try discriminate.
    intros [E | []]. discriminate E.
  - right. eexists. split; [reflexivity|]. simpl.
    repeat split; try tauto; try discriminate.
    intros [E | []]. discriminate E.
  - right. eexists. split; [reflexivity|]. simpl.
    repeat split; try tauto; try discriminate.
Qed.

Lemma or_old_idem {A} (new old : option A) :
  or_old new (or_old new old) = or_old new old.
Proof. now destruct new. Qed.

Lemma set_idem (values : Req.fields) (b : Book.t) :
  set values (set values b) = set values b.
Proof. unfold set. simpl. now rewrite !or_old_idem. Qed.

Lemma written_idem (values : Req.fields) (k : Z) (st : store) :
  written values k (written values k st) = written values k st.
Proof.
  unfold written. simpl. f_equal. rewrite map_map. apply map_ext.
  intros r. destruct (has_id k r) eqn:H.
  - change (has_id k (set values r)) with (has_id k r).
    rewrite H. apply set_idem.
  - now rewrite H.
Qed.

Lemma written_lookup (values : Req.fields) (pk : string) (st : store)
      (b : Book.t) :
  lookup pk st = Some b ->
  lookup pk (written values (id b) st) = Some (set values b).
Proof.
  intros L. destruct (lookup_some _ _ _ L) as (_ & Aff & Fb).
  unfold lookup. rewrite Aff. simpl. rewrite written_find, Fb. simpl.
  now rewrite (proj2 (has_id_true (id b) b)).
Qed.

(** X4. Submitting the same update twice leaves the table as submitting
    it once does, whatever the request and the table. *)
Theorem update_twice_is_update_once (req : Req.t) (st : store) :
  after PostBooksId req (after PostBooksId req st)
  = after PostBooksId req st.
Proof.
  rewrite (after_update req st).
  destruct (lookup (Req.params_id req) st) as [b|] eqn:L.
  - destruct (validate_changed (Req.body req)) eqn:V.
    + rewrite after_update, (written_lookup _ _ _ _ L), V.
      apply written_idem.
    + now rewrite after_update, L, V.
  - now rewrite after_update, L.
Qed.

Lemma written_nothing (values : Req.fields) (k : Z) (st : store) :
  Req.title values = None -> Req.author values = None ->
  Req.genre values = None -> Req.year values = None ->
  written values k st = st.
Proof.
  intros T A G Y. destruct st as [l s]. unfold written. simpl. f_equal.
  rewrite <- (map_id l) at 2. apply map_ext. intros r.
  destruct (has_id k r); [|reflexivity].
  unfold set. rewrite T, A, G, Y. now destruct r.
Qed.

(** X5. An update of a record that is present which submits none of the
    four fields passes validation, changes nothing and redirects to the
    root. *)
Theorem update_without_fields_changes_nothing (req : Req.t) (st : store)
        (b : Book.t) :
  lookup (Req.params_id req) st = Some b ->
  Req.title (Req.body req) = None -> Req.author (Req.body req) = None ->
  Req.genre (Req.body req) = None -> Req.year (Req.body req) = None ->
  post_books_id req st = (st, Returned (Redirect "/")).
Proof.
  intros L T A G Y. unfold post_books_id. apply asyncHandler_returns.
  unfold bind, findByPk, update, validate_changed. rewrite L, T, A. simpl.
  now rewrite written_nothing.
Qed.

(** *** Ids *)










(** *** Row counts *)

Lemma deleted_length (k : Z) (l : list Book.t) (b : Book.t) :
  NoDup (map id l) -> In b l -> id b = k ->
  S (List.length (filter (fun r => negb (has_id k r)) l)) = List.length l.
Proof.
  induction l as [|x l IH]; simpl; [easy|].
  intros N Ib E. inversion N as [|? ? Nx Nl]; subst.
  destruct (has_id (id b) x) eqn:H; simpl.
  - f_equal. apply has_id_true in H.
    rewrite filter_all; [reflexivity|].
    intros y Hy. apply negb_true_iff, not_true_iff_false.
    rewrite has_id_true. intros Ey. apply Nx. rewrite H, <- Ey.
    now apply in_map.
  - f_equal. destruct Ib as [-> | Ib].
    + apply not_true_iff_false in H. destruct H. now apply has_id_true.
    + now apply IH.
Qed.

(** X8. Under the primary key, a request changes the number of rows by
    one at most: an accepted creation adds one row, the deletion of a
    record that is present removes one, and every other request, updates
    included, keeps the number. *)
Theorem row_count_after (r : route) (req : Req.t) (st : store) :
  pk_unique st ->
  List.length (rows (after r req st))
  = match r with
    | PostBooksNew =>
        match validate_new (Req.body req) with
        | [] => S (List.length (rows st))
        | _ => List.length (rows st)
        end
    | PostBooksIdDelete =>
        match lookup (Req.params_id req) st with
        | Some _ => pred (List.length (rows st))
        | None => List.length (rows st)
        end
    | _ => List.length (rows st)
    end.
Proof.
  intros U.
  destruct r; try (rewrite after_read; [reflexivity | discriminate ..]).
  - rewrite after_create. destruct (validate_new (Req.body req)); simpl;
      [|reflexivity].
    rewrite List.length_app. simpl. lia.
  - rewrite after_update.
    destruct (lookup (Req.params_id req) st) as [b|]; [|reflexivity].
    destruct (validate_changed (Req.body req)); simpl; [|reflexivity].
    apply List.length_map.
  - rewrite after_delete.
    destruct (lookup (Req.params_id req) st) as [b|] eqn:L; [|reflexivity].
    destruct (lookup_some _ _ _ L) as (Ib & _ & _). simpl.
    now rewrite <- (deleted_length (id b) (rows st) b U Ib eq_refl).
Qed.

(** *** Creation, fetch and deletion together *)

Lemma find_snoc {A} (f : A -> bool) (l : list A) (x : A) :
  find f (l ++ [x])%list
  = match find f l with
    | Some y => Some y
    | None => if f x then Some x else None
    end.
Proof.
  induction l as [|y l IH]; simpl; [reflexivity|].
  now destruct (f y).
Qed.

Lemma find_fresh (st : store) : find (has_id (next_id st)) (rows st) = None.
Proof.
  destruct (find (has_id (next_id st)) (rows st)) as [b|] eqn:F;
    [|reflexivity].
  apply find_some in F as [I H]. apply has_id_true in H.
  destruct (next_id_fresh st). rewrite <- H. now apply in_map.
Qed.

(** X9. After a creation that is accepted, the fetch by the new id yields
    the created record, the edit page GET /books/:id shows it, and the
    fetch by any other id yields what it yielded before. *)
Theorem created_record_is_fetched (st : store) (req get : Req.t)
        (t a : string) :
  Req.title (Req.body req) = Some t -> Str.blank t = false ->
  Req.author (Req.body req) = Some a -> Str.blank a = false ->
  integer_affinity (Req.params_id get) = Sql.VInt (next_id st) ->
  let st' := after PostBooksNew req st in
  let b := build (next_id st) (Req.body req) in
  lookup (Req.params_id get) st' = Some b
  /\ get_books_id get st'
     = (st', Returned (Render 200 "update-book" (OneBook (Some b))))
  /\ forall pk,
      integer_affinity pk <> Sql.VInt (next_id st) ->
      lookup pk st' = lookup pk st.
Proof.
  intros T Bt A Ba G st' b.
  assert (V : validate_new (Req.body req) = []).
  { apply validate_new_nil. unfold notEmpty. split.
    - exists t. now rewrite Bt.
    - exists a. now rewrite Ba. }
  assert (E : st' = inserted (Req.body req) st).
  { unfold st'. now rewrite after_create, V. }
  assert (L : lookup (Req.params_id get) st' = Some b).
  { rewrite E. unfold lookup. rewrite G. simpl.
    rewrite find_snoc, find_fresh.
    now rewrite (proj2 (has_id_true (next_id st) (build (next_id st) _))). }
  split; [exact L|]. split.
  - unfold get_books_id, bind, findByPk. now rewrite L.
  - intros pk N. rewrite E. unfold lookup.
    destruct (integer_affinity pk) as [k|]; [|reflexivity].
    simpl. rewrite find_snoc.
    destruct (find (has_id k) (rows st)); [reflexivity|].
    destruct (has_id k (build (next_id st) (Req.body req))) eqn:H;
      [|reflexivity].
    apply has_id_true in H. simpl in H. congruence.
Qed.

(** X10. Once a record is deleted, the routes addressed at its id treat it
    as a record that never was: the edit page is rendered with no record
    (status 200, not the not-found page), the update is answered with the
    error page, a second deletion throws, and none of them writes. *)
Theorem deleted_record_is_gone (st : store) (req : Req.t) (b : Book.t) :
  lookup (Req.params_id req) st = Some b ->
  let st' := after PostBooksIdDelete req st in
  get_books_id req st'
  = (st', Returned (Render 200 "update-book" (OneBook None)))
  /\ post_books_id req st' = (st', Returned error_page)
  /\ post_books_id_delete req st' = (st', Thrown TypeError).
Proof.
  intros L st'.
  assert (N : lookup (Req.params_id req) st' = None).
  { unfold st'. rewrite after_delete, L.
    destruct (lookup_some _ _ _ L) as (_ & Aff & _).
    unfold lookup. rewrite Aff. simpl. apply deleted_find. }
  split; [|split].
  - unfold get_books_id, bind, findByPk. now rewrite N.
  - now apply missing_record_update.
  - unfold post_books_id_delete, bind, findByPk. now rewrite N.
Qed.

(** X11. An update of a record that is present, posted to /books/<pk>, that
    submits a blank title or a blank author writes nothing and renders
    the update form again with the id <pk> read from the URL, the
    submitted values and the alert set. *)
Theorem update_blank_field_rerenders (st : store) (req : Req.t)
        (b : Book.t) (pk : string) :
  Req.url req = "/books/" ++ pk -> pk <> "new" ->
  lookup (Req.params_id req) st = Some b ->
  (exists s, Req.title (Req.body req) = Some s /\ Str.blank s = true)
  \/ (exists s, Req.author (Req.body req) = Some s /\ Str.blank s = true) ->
  post_books_id req st
  = (st,
     Returned
       (Render 200 "update-book"
          (UpdateForm pk (Req.title (Req.body req))
             (Req.author (Req.body req)) (Req.genre (Req.body req))
             (Req.year (Req.body req)) true))).
Proof.
  intros U N L B.
  assert (V : validate_changed (Req.body req) <> []).
  { unfold validate_changed, provided, notEmpty.
    destruct B as [(s & -> & ->) | (s & -> & ->)]; simpl.
    - discriminate.
    - destruct (Req.title (Req.body req)) as [x|]; [|discriminate].
      destruct (negb (Str.blank x)); discriminate. }
  unfold post_books_id.
  erewrite asyncHandler_catches.
  2:{ cbv beta. unfold bind, findByPk. rewrite L. simpl.
      rewrite (update_rejects _ _ _ V). reflexivity. }
  simpl. rewrite U. simpl.
  destruct (String.eqb pk "new") eqn:E.
  - apply String.eqb_eq in E. contradiction.
  - reflexivity.
Qed.

(** *** The search term as a pattern *)

Lemma lower_percent (c : ascii) : Str.lower c = "%"%char -> c = "%"%char.
Proof.
  destruct c as [[] [] [] [] [] [] [] []]; vm_compute; congruence.
Qed.

Lemma lower_underscore (c : ascii) : Str.lower c = "_"%char -> c = "_"%char.
Proof.
  destruct c as [[] [] [] [] [] [] [] []]; vm_compute; congruence.
Qed.

Lemma eqb_lower (c d w : ascii) :
  (forall x, Str.lower x = w -> x = w) -> Str.lower w = w ->
  Str.lower c = Str.lower d -> Ascii.eqb c w = Ascii.eqb d w.
Proof.
  intros Inj Fix E.
  destruct (Ascii.eqb c w) eqn:C, (Ascii.eqb d w) eqn:D; try reflexivity.
  - apply Ascii.eqb_eq in C. subst c. rewrite Fix in E.
    symmetry in E. apply Inj in E. subst d.
    now rewrite Ascii.eqb_refl in D.
  - apply Ascii.eqb_eq in D. subst d. rewrite Fix in E.
    apply Inj in E. subst c. now rewrite Ascii.eqb_refl in C.
Qed.

Lemma like_underscore (p s : string) :
  Sql.like (String "_" p) s
  = match s with
    | EmptyString => false
    | String _ s' => Sql.like p s'
    end.
Proof. destruct s; reflexivity. Qed.

(** LIKE does not see the letter case of its pattern. *)
Lemma like_fold_pattern (p q : string) :
  Str.fold_case p = Str.fold_case q -> forall s, Sql.like p s = Sql.like q s.
Proof.
  revert q. induction p as [|c p IH]; intros [|d q] E; simpl in E;
    try discriminate; [reflexivity|].
  injection E as Ec Ep. specialize (IH q Ep).
  pose proof (eqb_lower c d "%" lower_percent eq_refl Ec) as P.
  pose proof (eqb_lower c d "_" lower_underscore eq_refl Ec) as U.
  destruct (Ascii.eqb c "%") eqn:Cp.
  - apply Ascii.eqb_eq in Cp. symmetry in P. apply Ascii.eqb_eq in P.
    subst c d. induction s as [|x s IHs].
    + rewrite !like_percent, IH. reflexivity.
    + rewrite (like_percent p), (like_percent q), IH, IHs. reflexivity.
  - destruct (Ascii.eqb c "_") eqn:Cu.
    + apply Ascii.eqb_eq in Cu. symmetry in U. apply Ascii.eqb_eq in U.
      subst c d. intros s. rewrite !like_underscore.
      destruct s; [reflexivity | apply IH].
    + intros s. rewrite !like_plain
        by (unfold Str.is_wildcard; rewrite <- ?P, <- ?U, ?Cp, ?Cu;
            reflexivity).
      destruct s as [|x s]; [reflexivity|].
      unfold Str.ceq. now rewrite Ec, IH.
Qed.

Lemma fold_case_app (a b : string) :
  Str.fold_case (a ++ b) = Str.fold_case a ++ Str.fold_case b.
Proof. induction a as [|c a IH]; simpl; [reflexivity | now rewrite IH]. Qed.

(** X12. The search does not see the letter case of the term: two terms
    that differ in the case of ASCII letters only get the same answer. *)
Theorem search_ignores_case_of_term (st : store) (req req' : Req.t)
        (t t' : string) :
  Req.search (Req.body req) = Some t ->
  Req.search (Req.body req') = Some t' ->
  Str.fold_case t = Str.fold_case t' ->
  post_root req st = post_root req' st.
Proof.
  intros S S' E. rewrite !post_root_listing, S, S'. do 4 f_equal.
  apply filter_ext. intros b.
  assert (L : forall s, Sql.like (pattern (Some t)) s
                        = Sql.like (pattern (Some t')) s).
  { apply like_fold_pattern. unfold pattern, Req.to_string.
    now rewrite !fold_case_app, E. }
  unfold search_where, like_title, like_author, like_genre, like_year,
    Sql.col_like.
  destruct (title b), (author b), (genre b),
    (option_map Sql.cell_text (year b)); now rewrite ?L.
Qed.

Lemma ceq_refl (c : ascii) : Str.ceq c c = true.
Proof. unfold Str.ceq. apply Ascii.eqb_refl. Qed.

(** A text followed by anything matches itself followed by [%], whatever
    characters it holds. *)
Lemma like_self (s x : string) : Sql.like (s ++ "%") (s ++ x) = true.
Proof.
  induction s as [|c s IH]; [apply like_all|].
  change (String c s ++ "%") with (String c (s ++ "%")).
  change (String c s ++ x) with (String c (s ++ x)).
  destruct (Ascii.eqb c "%") eqn:P.
  - apply Ascii.eqb_eq in P. subst c. apply like_percent_iff.
    exists "%", (s ++ x). split; [reflexivity | exact IH].
  - destruct (Ascii.eqb c "_") eqn:U.
    + apply Ascii.eqb_eq in U. subst c. now rewrite like_underscore.
    + rewrite like_plain by (unfold Str.is_wildcard; now rewrite P, U).
      now rewrite ceq_refl, IH.
Qed.

(** X13. A record is found by the full text of any of its columns: the
    search for the title, the author, the genre or the year as text of a
    row of the table lists that row, whatever characters the text holds. *)
Theorem search_by_own_text_finds_record (st : store) (req : Req.t)
        (b : Book.t) (s : string) :
  In b (rows st) -> In s (texts b) ->
  Req.search (Req.body req) = Some s ->
  exists found,
    post_root req st = (st, Returned (Render 200 "index" (Books found)))
    /\ In b found.
Proof.
  intros Ib Is S. eexists. split; [apply post_root_listing|].
  apply filter_In. split; [exact Ib|]. rewrite S.
  apply search_where_holds. exists s. split; [exact Is|].
  unfold pattern, Req.to_string.
  change ("%" ++ s ++ "%") with (String "%" (s ++ "%")).
  apply like_percent_iff. exists "", s. split; [reflexivity|].
  rewrite <- (append_nil_r s) at 2. apply like_self.
Qed.

(** A run without wildcards at the head of a pattern matches a run of
    the text that is the same up to letter case. *)
Lemma like_plain_prefix (t p s : string) :
  Str.has_wildcard t = false ->
  Sql.like (t ++ p) s = true
  <-> exists mid rest,
      s = mid ++ rest /\ Str.fold_case mid = Str.fold_case t
      /\ Sql.like p rest = true.
Proof.
  revert s. induction t as [|c t IH]; intros s W.
  - simpl append. split.
    + intros H. now exists "", s.
    + intros (mid & rest & -> & F & H).
      destruct mid; [exact H | discriminate F].
  - simpl in W. apply orb_false_elim in W as [Wc Wt].
    change (String c t ++ p) with (String c (t ++ p)).
    rewrite (like_plain _ _ _ Wc). destruct s as [|d s].
    + split; [discriminate|].
      intros (mid & rest & E & F & _). destruct mid; simpl in *; discriminate.
    + rewrite andb_true_iff, ceq_fold, (IH s Wt). split.
      * intros (L & mid & rest & E & F & H).
        exists (String d mid), rest. simpl. now rewrite E, L, F.
      * intros (mid & rest & E & F & H). destruct mid as [|x mid]; simpl in *.
        -- discriminate.
        -- injection E as -> E. injection F as L F.
           split; [exact L|]. now exists mid, rest.
Qed.

(** X14. A [%] inside the term stands for any run of characters: the
    search for [u%v], [u] and [v] without wildcards, lists the rows one of
    whose texts holds [u] and, somewhere after it, [v], up to letter
    case. *)
Theorem search_percent_matches_any_run (st : store) (req : Req.t)
        (u v : string) :
  Req.search (Req.body req) = Some (u ++ "%" ++ v) ->
  Str.has_wildcard u = false -> Str.has_wildcard v = false ->
  exists found,
    post_root req st = (st, Returned (Render 200 "index" (Books found)))
    /\ forall b,
        In b found
        <-> In b (rows st)
            /\ exists s pre m1 gap m2 post,
                In s (texts b)
                /\ s = pre ++ m1 ++ gap ++ m2 ++ post
                /\ Str.fold_case m1 = Str.fold_case u
                /\ Str.fold_case m2 = Str.fold_case v.
Proof.
  intros S Wu Wv. eexists. split; [apply post_root_listing|].
  intros b. rewrite filter_In, S, search_where_holds.
  apply and_iff_compat_l.
  assert (P : pattern (Some (u ++ "%" ++ v))
              = String "%" (u ++ String "%" (v ++ "%"))).
  { unfold pattern, Req.to_string. simpl. now rewrite append_assoc. }
  rewrite P. split.
  - intros (s & Is & L). apply like_percent_iff in L as (pre & r1 & -> & L).
    apply (like_plain_prefix _ _ _ Wu) in L as (m1 & r2 & -> & F1 & L).
    apply (like_term_iff v r2 Wv) in L as (gap & m2 & post & -> & F2).
    now exists (pre ++ m1 ++ gap ++ m2 ++ post), pre, m1, gap, m2, post.
  - intros (s & pre & m1 & gap & m2 & post & Is & -> & F1 & F2).
    exists (pre ++ m1 ++ gap ++ m2 ++ post). split; [exact Is|].
    apply like_percent_iff. exists pre, (m1 ++ gap ++ m2 ++ post).
    split; [reflexivity|]. apply (like_plain_prefix _ _ _ Wu).
    exists m1, (gap ++ m2 ++ post). split; [reflexivity|]. split; [exact F1|].
    apply (like_term_iff v _ Wv). now exists gap, m2, post.
Qed.

(** X15. A [_] inside the term stands for any one character: the search
    for [u_v], [u] and [v] without wildcards, lists the rows one of whose
    texts holds [u], one character whatever it is, and [v], up to letter
    case. *)
Theorem search_underscore_matches_one_character (st : store) (req : Req.t)
        (u v : string) :
  Req.search (Req.body req) = Some (u ++ "_" ++ v) ->
  Str.has_wildcard u = false -> Str.has_wildcard v = false ->
  exists found,
    post_root req st = (st, Returned (Render 200 "index" (Books found)))
    /\ forall b,
        In b found
        <-> In b (rows st)
            /\ exists s pre m1 c m2 post,
                In s (texts b)
                /\ s = pre ++ m1 ++ String c (m2 ++ post)
                /\ Str.fold_case m1 = Str.fold_case u
                /\ Str.fold_case m2 = Str.fold_case v.
Proof.
  intros S Wu Wv. eexists. split; [apply post_root_listing|].
  intros b. rewrite filter_In, S, search_where_holds.
  apply and_iff_compat_l.
  assert (P : pattern (Some (u ++ "_" ++ v))
              = String "%" (u ++ String "_" (v ++ "%"))).
  { unfold pattern, Req.to_string. simpl. now rewrite append_assoc. }
  rewrite P. split.
  - intros (s & Is & L). apply like_percent_iff in L as (pre & r1 & -> & L).
    apply (like_plain_prefix _ _ _ Wu) in L as (m1 & r2 & -> & F1 & L).
    rewrite like_underscore in L. destruct r2 as [|c r3]; [discriminate|].
    apply (like_prefix_iff v r3 Wv) in L as (m2 & post & -> & F2).
    now exists (pre ++ m1 ++ String c (m2 ++ post)), pre, m1, c, m2, post.
  - intros (s & pre & m1 & c & m2 & post & Is & -> & F1 & F2).
    exists (pre ++ m1 ++ String c (m2 ++ post)). split; [exact Is|].
    apply like_percent_iff. exists pre, (m1 ++ String c (m2 ++ post)).
    split; [reflexivity|]. apply (like_plain_prefix _ _ _ Wu).
    exists m1, (String c (m2 ++ post)).
    split; [reflexivity|]. split; [exact F1|].
    rewrite like_underscore. apply (like_prefix_iff v _ Wv).
    now exists m2, post.
Qed.

(** X16. A search request without the field [search] is answered as the
    search for the word undefined: it lists the rows one of whose texts
    holds that word up to letter case, and no row of a table where none
    does. *)
Theorem search_without_field_looks_for_undefined (st : store) (req : Req.t) :
  Req.search (Req.body req) = None ->
  exists found,
    post_root req st = (st, Returned (Render 200 "index" (Books found)))
    /\ (forall b,
          In b found
          <-> In b (rows st)
              /\ exists s, In s (texts b)
                           /\ Str.ci_substring_of "undefined" s)
    /\ ((forall b s, In b (rows st) -> In s (texts b) ->
                     ~ Str.ci_substring_of "undefined" s) ->
        found = []).
Proof.
  intros S. eexists. split; [apply post_root_listing|]. rewrite S.
  assert (K : forall b,
             Sql.holds (search_where (pattern None) b) = true
             <-> exists s, In s (texts b)
                           /\ Str.ci_substring_of "undefined" s).
  { intros b. rewrite search_where_holds.
    split; intros (s & I & L); exists s; split; auto;
      now apply (like_term_iff "undefined" s eq_refl). }
  split.
  - intros b. now rewrite filter_In, K.
  - intros No. apply filter_none. intros b Hb.
    apply not_true_iff_false. rewrite K. intros (s & I & L).
    now apply (No b s).
Qed.

(** *** The invariant the validators keep *)

Lemma provided_not_blank (path : string) (v : option string) :
  provided path v = [] -> forall s, v = Some s -> Str.blank s = false.
Proof.
  unfold provided, notEmpty. intros H s ->.
  destruct (Str.blank s); [discriminate H | reflexivity].
Qed.

(** X17. In every table the application reaches, the title and the author
    of each row hold a character that is not white space: a title or an
    author of blanks only is never stored. *)
Theorem reachable_rows_not_blank (st : store) :
  reachable st ->
  Forall (fun b =>
            (exists t, title b = Some t /\ Str.blank t = false)
            /\ (exists a, author b = Some a /\ Str.blank a = false))
         (rows st).
Proof.
  induction 1 as [|r req st _ IH]; [constructor|].
  destruct r; try (rewrite after_read; [exact IH | discriminate ..]).
  - rewrite after_create.
    destruct (validate_new (Req.body req)) eqn:V; [|exact IH].
    apply validate_new_nil in V as [(t & T & Ht) (a & A & Ha)].
    unfold notEmpty in Ht, Ha. apply negb_true_iff in Ht, Ha.
    simpl. apply Forall_app. split; [exact IH|].
    constructor; [|constructor]. simpl. split; eauto.
  - rewrite after_update.
    destruct (lookup (Req.params_id req) st) as [b|]; [|exact IH].
    destruct (validate_changed (Req.body req)) eqn:V; [|exact IH].
    unfold validate_changed in V. apply app_eq_nil in V as [Vt Va].
    simpl. rewrite Forall_forall in *. intros x Hx.
    apply in_map_iff in Hx as (y & <- & Hy).
    destruct (IH y Hy) as [(t & T & Ht) (a & A & Ha)].
    destruct (has_id (id b) y); [|split; eauto]. split; simpl.
    + destruct (Req.title (Req.body req)) as [t'|] eqn:E; simpl.
      * exists t'. split; [reflexivity|].
        now apply (provided_not_blank _ _ Vt).
      * eauto.
    + destruct (Req.author (Req.body req)) as [a'|] eqn:E; simpl.
      * exists a'. split; [reflexivity|].
        now apply (provided_not_blank _ _ Va).
      * eauto.
  - rewrite after_delete.
    destruct (lookup (Req.params_id req) st) as [b|]; [|exact IH].
    simpl. rewrite Forall_forall in *. intros x Hx.
    apply filter_In in Hx as [Hx _]. auto.
Qed.

End Further.

(** ** The catalogue at work *)

Import Sample.

Lemma starts_with_append (t post : string) :
  Str.starts_with t (t ++ post) = true.
Proof.
  induction t as [|c t IH]; simpl; [reflexivity|].
  now rewrite Ascii.eqb_refl, IH.
Qed.

(** [Str.occurs] finds every occurrence. *)
Lemma occurs_complete (t s : string) :
  Str.substring_of t s -> Str.occurs t s = true.
Proof.
  intros (pre & post & ->). induction pre as [|c pre IH].
  - simpl append. destruct (t ++ post) eqn:E; simpl;
      rewrite <- E, starts_with_append; reflexivity.
  - simpl. rewrite IH. apply orb_true_r.
Qed.

(** The counterexample to C3 as stated: a title of one space is not empty,
    and its creation is rejected. *)
Lemma create_blank_title_rejected :
  ~ (forall (st : store) (req : Req.t) (t a : string),
        Req.title (Req.body req) = Some t -> t <> "" ->
        Req.author (Req.body req) = Some a -> a <> "" ->
        exists b st',
          post_books_new req st = (st', Returned (Redirect "/books"))
          /\ In b (rows st')
          /\ title b = Some t /\ author b = Some a).
Proof.
  intros H.
  destruct (H empty (post "/books/new" "" blank_title) " " "Austen")
    as (b & st' & E & _); try reflexivity; try discriminate.
Qed.

(** The counterexample to C4 as stated: no text of Emma's row holds an
    underscore, and the search for one finds the row. *)
Lemma search_underscore_finds_all :
  ~ (forall (st : store) (req : Req.t) (term : string),
        Req.search (Req.body req) = Some term ->
        exists found,
          post_root req st = (st, Returned (Render 200 "index" (Books found)))
          /\ forall b,
              In b found
              <-> In b (rows st)
                  /\ exists s, In s (texts b) /\ Str.substring_of term s).
Proof.
  intros H.
  destruct (H one_book (search_for "_") "_" eq_refl) as (found & E & F).
  injection E as <-.
  destruct (proj1 (F emma_row)) as (_ & s & I & S); [now left|].
  apply occurs_complete in S.
  destruct I as [<- | [<- | [<- | [<- | []]]]]; discriminate S.
Qed.

(** The search also finds a term written in another case. *)
Lemma search_folds_case :
  post_root (search_for "emma") one_book
  = (one_book, Returned (Render 200 "index" (Books [emma_row])))
  /\ forall s, In s (texts emma_row) -> ~ Str.substring_of "emma" s.
Proof.
  split; [reflexivity|]. intros s I S. apply occurs_complete in S.
  destruct I as [<- | [<- | [<- | [<- | []]]]]; discriminate S.
Qed.

(** The counterexample to C8 as stated: the update of an id the empty
    table does not hold is not answered with the not-found page. *)
Lemma update_absent_id_not_page_not_found :
  ~ (forall (st : store) (req : Req.t),
        lookup (Req.params_id req) st = None ->
        snd (post_books_id req st) = Returned page_not_found).
Proof.
  intros H. specialize (H empty (post "/books/1" "1" persuasion) eq_refl).
  discriminate H.
Qed.

(** C9 at POST /books/new?x=1 with an empty title: the path starts with
    /books/new, and the wrapper renders the update form, under the id
    [new?x=1], where the creation form is due. *)
Theorem create_under_query_renders_update_form :
  String.prefix "/books/new" "/books/new?x=1" = true
  /\ post_books_new (post "/books/new?x=1" "" untitled) empty
     = (empty,
        Returned
          (Render 200 "update-book"
             (UpdateForm "new?x=1" (Some "") (Some "Austen") (Some "Novel")
                (Some "1815") true))).
Proof. split; reflexivity. Qed.

(** ** The theorems at the sample catalogue *)

Lemma one_book_reachable : reachable one_book.
Proof. apply reach_step, reach_empty. Defined.

Lemma one_book_pk_unique : pk_unique one_book.
Proof.
  unfold pk_unique. simpl. constructor; [intros [] | constructor].
Defined.

Lemma one_book_at_rest : Forall at_rest (rows one_book).
Proof.
  constructor; [|constructor].
  split; eexists; (split; [reflexivity | discriminate]).
Defined.

Lemma reachable_rows_at_rest_witness :
  reachable one_book /\ Forall at_rest (rows one_book).
Proof.
  split; [exact one_book_reachable|].
  exact (proj1 (reachable_rows_at_rest one_book one_book_reachable)).
Defined.

Lemma create_empty_title_rerenders_witness :
  post_books_new (post "/books/new" "" untitled) one_book
  = (one_book,
     Returned
       (Render 200 "new-book"
          (NewForm (Some "") (Some "Austen") (Some "Novel") (Some "1815")
             true))).
Proof.
  exact (proj2 (create_empty_title_rerenders one_book
                  (post "/books/new" "" untitled) eq_refl eq_refl)).
Defined.

Lemma create_persists_witness :
  exists b st',
    post_books_new (post "/books/new" "" persuasion) one_book
    = (st', Returned (Redirect "/books"))
    /\ rows st' = [emma_row; b]
    /\ title b = Some "Persuasion".
Proof.
  destruct (create_persists one_book (post "/books/new" "" persuasion)
              "Persuasion" "Austen" eq_refl eq_refl eq_refl eq_refl)
    as (b & st' & E & R & _ & T & _).
  exists b, st'. split; [exact E|]. split; [exact R | exact T].
Defined.

Lemma search_finds_substrings_witness :
  exists found,
    post_root (search_for "nov") one_book
    = (one_book, Returned (Render 200 "index" (Books found)))
    /\ forall x, In x found <-> x = emma_row.
Proof.
  destruct (search_finds_substrings one_book (search_for "nov") "nov"
              eq_refl eq_refl) as (found & E & _ & G & _).
  exists found. split; [exact E|].
  apply (G emma_row "Novel").
  - now left.
  - reflexivity.
  - exists "", "Nov", "el". split; reflexivity.
  - intros b' s [<- | []] N. now destruct N.
Defined.

Lemma search_empty_term_lists_all_witness :
  post_root (search_for "") one_book
  = get_books (search_for "") one_book.
Proof.
  apply (search_empty_term_lists_all one_book (search_for ""));
    [|reflexivity].
  exact one_book_at_rest.
Defined.

Lemma one_book_lookup : lookup "1" one_book = Some emma_row.
Proof. reflexivity. Defined.

Lemma update_changes_only_target_witness :
  exists b',
    lookup "1" (after PostBooksId (post "/books/1" "1" persuasion) one_book)
    = Some b'
    /\ id b' = 1
    /\ title b' = Some "Persuasion".
Proof.
  destruct (update_changes_only_target one_book
              (post "/books/1" "1" persuasion) emma_row
              "Persuasion" "Austen" one_book_pk_unique one_book_lookup
              eq_refl eq_refl)
    as (b' & _ & L & I & F & _).
  exists b'. split; [exact L|]. split; [exact I | exact (proj1 F)].
Defined.

Lemma delete_removes_exactly_witness :
  exists st',
    post_books_id_delete (post "/books/1/delete" "1" emma) one_book
    = (st', Returned (Redirect "/books"))
    /\ findByPk "1" st' = (st', Returned None).
Proof.
  destruct (delete_removes_exactly one_book
              (post "/books/1/delete" "1" emma) emma_row
              one_book_pk_unique one_book_lookup) as (st' & E & _ & F & _).
  exists st'. split; [exact E | exact F].
Defined.

Lemma update_absent_id_error_page_witness :
  post_books_id (post "/books/7" "7" persuasion) one_book
  = (one_book, Returned error_page).
Proof.
  exact (proj1 (update_absent_id_error_page one_book
                  (post "/books/7" "7" persuasion) eq_refl)).
Defined.

Lemma delete_absent_id_throws_witness :
  post_books_id_delete (post "/books/7/delete" "7" emma) one_book
  = (one_book, Thrown TypeError).
Proof.
  exact (proj1 (proj2 (delete_absent_id_throws one_book
                         (post "/books/7/delete" "7" emma) eq_refl))).
Defined.

(** ** The further properties at the sample catalogue *)

Lemma read_routes_write_nothing_witness :
  exists resp,
    handle GetBooksId (post "/books/1" "1" emma) one_book
    = (one_book, Returned resp).
Proof.
  apply (read_routes_write_nothing GetBooksId); discriminate.
Defined.

Lemma update_without_fields_changes_nothing_witness :
  post_books_id (post "/books/1" "1" no_fields) one_book
  = (one_book, Returned (Redirect "/")).
Proof.
  exact (update_without_fields_changes_nothing
           (post "/books/1" "1" no_fields) one_book emma_row
           one_book_lookup eq_refl eq_refl eq_refl eq_refl).
Defined.




Lemma row_count_after_witness :
  List.length
    (rows (after PostBooksIdDelete (post "/books/1/delete" "1" emma)
             one_book))
  = 0%nat.
Proof.
  exact (row_count_after PostBooksIdDelete
           (post "/books/1/delete" "1" emma) one_book one_book_pk_unique).
Defined.

Lemma created_record_is_fetched_witness :
  exists b,
    lookup "2" (after PostBooksNew (post "/books/new" "" persuasion) one_book)
    = Some b
    /\ title b = Some "Persuasion".
Proof.
  eexists. split.
  - exact (proj1 (created_record_is_fetched one_book
                    (post "/books/new" "" persuasion) (post "/books/2" "2" emma)
                    "Persuasion" "Austen"
                    eq_refl eq_refl eq_refl eq_refl eq_refl)).
  - reflexivity.
Defined.

Lemma deleted_record_is_gone_witness :
  post_books_id_delete (post "/books/1/delete" "1" emma) emptied
  = (emptied, Thrown TypeError).
Proof.
  exact (proj2 (proj2 (deleted_record_is_gone one_book
                         (post "/books/1/delete" "1" emma) emma_row
                         one_book_lookup))).
Defined.

Lemma update_blank_field_rerenders_witness :
  post_books_id (post "/books/1" "1" blank_author) one_book
  = (one_book,
     Returned
       (Render 200 "update-book"
          (UpdateForm "1" (Some "Emma") (Some "  ") None None true))).
Proof.
  apply (update_blank_field_rerenders one_book
           (post "/books/1" "1" blank_author) emma_row "1").
  - reflexivity.
  - discriminate.
  - exact one_book_lookup.
  - right. exists "  ". split; reflexivity.
Defined.

Lemma search_ignores_case_of_term_witness :
  post_root (search_for "AUSTEN") one_book
  = post_root (search_for "austen") one_book.
Proof.
  apply (search_ignores_case_of_term one_book (search_for "AUSTEN")
           (search_for "austen") "AUSTEN" "austen"); reflexivity.
Defined.

Lemma search_by_own_text_finds_record_witness :
  exists found,
    post_root (search_for "1815") one_book
    = (one_book, Returned (Render 200 "index" (Books found)))
    /\ In emma_row found.
Proof.
  apply (search_by_own_text_finds_record one_book (search_for "1815")
           emma_row "1815").
  - now left.
  - simpl. tauto.
  - reflexivity.
Defined.

Lemma search_percent_matches_any_run_witness :
  exists found,
    post_root (search_for "a%n") one_book
    = (one_book, Returned (Render 200 "index" (Books found)))
    /\ In emma_row found.
Proof.
  destruct (search_percent_matches_any_run one_book (search_for "a%n")
              "a" "n" eq_refl eq_refl eq_refl) as (found & E & F).
  exists found. split; [exact E|]. apply F. split; [now left|].
  exists "Austen", "", "A", "uste", "n", "".
  repeat split. simpl. tauto.
Defined.

Lemma search_underscore_matches_one_character_witness :
  exists found,
    post_root (search_for "e_ma") one_book
    = (one_book, Returned (Render 200 "index" (Books found)))
    /\ In emma_row found.
Proof.
  destruct (search_underscore_matches_one_character one_book
              (search_for "e_ma") "e" "ma" eq_refl eq_refl eq_refl)
    as (found & E & F).
  exists found. split; [exact E|]. apply F. split; [now left|].
  exists "Emma", "", "E", "m"%char, "ma", "".
  repeat split. simpl. tauto.
Defined.

Lemma search_without_field_looks_for_undefined_witness :
  exists found,
    post_root (post "/" "" no_fields) one_book
    = (one_book, Returned (Render 200 "index" (Books found)))
    /\ ~ In emma_row found.
Proof.
  destruct (search_without_field_looks_for_undefined one_book
              (post "/" "" no_fields) eq_refl) as (found & E & _ & N).
  exists found. split; [exact E|]. rewrite N; [now intros []|].
  intros b s [<- | []] I (pre & mid & post & -> & F).
  assert (H : forall x, String.length (Str.fold_case x) = String.length x)
    by (induction x; simpl; congruence).
  assert (A : forall x y, String.length (x ++ y)
                          = (String.length x + String.length y)%nat)
    by (induction x; simpl; intros; [reflexivity | now rewrite IHx]).
  assert (M : String.length mid = 9%nat) by (rewrite <- H, F; reflexivity).
  assert (L : (9 <= String.length (pre ++ mid ++ post))%nat)
    by (rewrite !A, M; lia).
  simpl in I.
  destruct I as [E' | [E' | [E' | [E' | []]]]]; rewrite <- E' in L;
    vm_compute in L; lia.
Defined.

Lemma reachable_rows_not_blank_witness :
  exists t, title emma_row = Some t /\ Str.blank t = false.
Proof.
  pose proof (reachable_rows_not_blank one_book one_book_reachable) as H.
  inversion H as [|x l Hx Hl]. exact (proj1 Hx).
Defined.
